(** * Blog-post workflow of src/chapters/chapter-17/example03.rs

    Shallow embedding of [Post] and of the [State] trait with its three
    implementors [Draft], [PendingReview] and [Published].  The boxed
    trait object [Box<dyn State>] becomes a closed inductive type (the
    three impls are the only ones in the program); [Option<Box<dyn State>>]
    becomes [option State]; the [String] buffer becomes [string] and
    [push_str] becomes [String.append]. *)

From Stdlib Require Import String List.
Import ListNotations.
Open Scope string_scope.

(** ** The [State] trait and its impls *)

Inductive State : Type :=
| Draft
| PendingReview
| Published.

(** [fn request_review(self: Box<Self>) -> Box<dyn State>], dispatched on
    the dynamic type of [self]; every impl in the source returns [self]. *)
Definition State_request_review (self : State) : State :=
  match self with
  | Draft => self
  | PendingReview => self
  | Published => self
  end.

(** [fn approve(self: Box<Self>) -> Box<dyn State>]: [PendingReview]
    returns [Box::new(Published {})], the other impls return [self]. *)
Definition State_approve (self : State) : State :=
  match self with
  | Draft => self
  | PendingReview => Published
  | Published => self
  end.

(** ** [struct Post] and [impl Post] *)

Record Post : Type := mkPost {
  state : option State;
  content : string
}.

(** [Option::take]: returns the old value and leaves [None] behind. *)
Definition option_take {A : Type} (o : option A) : option A * option A :=
  (o, None).

Definition Post_new : Post :=
  {| state := Some Draft; content := "" |}.

Definition Post_add_text (self : Post) (text : string) : Post :=
  {| state := state self; content := content self ++ text |}.

(** The successive values of [*self] while [approve] runs: after
    [self.state.take()], and (in the [Some] branch) after the assignment
    [self.state = Some(s.approve())]. *)
Definition Post_approve_trace (self : Post) : list Post :=
  let (taken, rest) := option_take (state self) in
  let self1 := {| state := rest; content := content self |} in
  match taken with
  | Some s => [self1; {| state := Some (State_approve s); content := content self1 |}]
  | None => [self1]
  end.

Definition Post_request_review_trace (self : Post) : list Post :=
  let (taken, rest) := option_take (state self) in
  let self1 := {| state := rest; content := content self |} in
  match taken with
  | Some s => [self1; {| state := Some (State_request_review s); content := content self1 |}]
  | None => [self1]
  end.

(** The value of [*self] when the method returns. *)
Definition Post_approve (self : Post) : Post :=
  last (Post_approve_trace self) self.

Definition Post_request_review (self : Post) : Post :=
  last (Post_request_review_trace self) self.

(** [pub fn content(&self) -> &str { &self.content }] *)
Definition Post_content (self : Post) : string := content self.

(** ** Client programs: sequences of mutating public calls *)

Inductive Call : Type :=
| AddText (text : string)
| RequestReview
| Approve.

Definition step (p : Post) (c : Call) : Post :=
  match c with
  | AddText t => Post_add_text p t
  | RequestReview => Post_request_review p
  | Approve => Post_approve p
  end.

Fixpoint run (p : Post) (cs : list Call) : Post :=
  match cs with
  | [] => p
  | c :: cs' => run (step p c) cs'
  end.

(** Concatenation of the [add_text] arguments, in call order. *)
Fixpoint texts (cs : list Call) : string :=
  match cs with
  | [] => ""
  | AddText t :: cs' => t ++ texts cs'
  | _ :: cs' => texts cs'
  end.

Definition salad : string := "I ate a salad for lunch today".

(** ** Helper lemmas *)

Lemma append_assoc (a b c : string) : (a ++ b) ++ c = a ++ (b ++ c).
Proof.
  induction a as [| ch a IH]; simpl; [reflexivity | now rewrite IH].
Qed.

Lemma append_empty_r (a : string) : a ++ "" = a.
Proof.
  induction a as [| ch a IH]; simpl; [reflexivity | now rewrite IH].
Qed.

Lemma step_content (p : Post) (c : Call) :
  content (step p c) = content p ++ texts [c].
Proof.
  destruct c as [t | |]; simpl.
  - now rewrite append_empty_r.
  - unfold Post_request_review, Post_request_review_trace; simpl.
    destruct (state p); simpl; now rewrite append_empty_r.
  - unfold Post_approve, Post_approve_trace; simpl.
    destruct (state p); simpl; now rewrite append_empty_r.
Qed.

Lemma run_content (p : Post) (cs : list Call) :
  content (run p cs) = content p ++ texts cs.
Proof.
  revert p; induction cs as [| c cs IH]; intro p; simpl.
  - now rewrite append_empty_r.
  - rewrite IH, step_content.
    destruct c; simpl; rewrite ?append_assoc; reflexivity.
Qed.

Lemma content_from_new (cs : list Call) :
  Post_content (run Post_new cs) = texts cs.
Proof.
  unfold Post_content; rewrite run_content; reflexivity.
Qed.

(** From [Post_new] the state is [Some Draft] forever: [Draft] maps to
    itself under both transitions. *)
Lemma run_state_draft (p : Post) (cs : list Call) :
  state p = Some Draft -> state (run p cs) = Some Draft.
Proof.
  revert p; induction cs as [| c cs IH]; intros p Hp; simpl; [exact Hp |].
  apply IH; destruct c; simpl.
  - exact Hp.
  - unfold Post_request_review, Post_request_review_trace; simpl.
    now rewrite Hp.
  - unfold Post_approve, Post_approve_trace; simpl.
    now rewrite Hp.
Qed.

Lemma step_state_some (p : Post) (c : Call) (s : State) :
  state p = Some s -> exists s', state (step p c) = Some s'.
Proof.
  intro Hp; destruct c; simpl.
  - now exists s.
  - unfold Post_request_review, Post_request_review_trace; simpl.
    rewrite Hp; simpl; eauto.
  - unfold Post_approve, Post_approve_trace; simpl.
    rewrite Hp; simpl; eauto.
Qed.

(** ** Claims *)

(** C1 (code_bug): [content()] should be empty outside [Published]; the
    code returns the buffer in every state.  After [new()] and
    [add_text(salad)] the state is [Draft] yet [content()] is [salad]. *)
Theorem C1_content_visible_in_draft :
  let p := run Post_new [AddText salad] in
  state p = Some Draft /\ Post_content p = salad /\ Post_content p <> "".
Proof.
  simpl; split; [reflexivity | split; [reflexivity | discriminate]].
Qed.

(** C2 (code_bug): [request_review()] on a [Draft] post should move it to
    [PendingReview]; [Draft::request_review] returns [self], so the state
    stays [Draft]. *)
Theorem C2_request_review_keeps_draft :
  state (Post_request_review Post_new) = Some Draft.
Proof. reflexivity. Qed.

(** C3 (code_bug): [content()] should be non-empty only once [Published]
    is reached; from [new()] the post never leaves [Draft], yet one
    [add_text("a")] already makes [content()] non-empty. *)
Theorem C3_nonempty_without_publish :
  Post_content (run Post_new [AddText "a"]) <> "" /\
  (forall cs, state (run Post_new cs) <> Some Published).
Proof.
  split; [discriminate |].
  intros cs H; rewrite (run_state_draft Post_new cs eq_refl) in H; discriminate.
Qed.

(** C4 (code_bug): in the scenario of [main], [content()] right after
    [add_text(salad)] is [salad], not the empty string asserted at line 81;
    it is still [salad] after [request_review()] and after [approve()]. *)
Theorem C4_main_scenario :
  let p1 := Post_add_text Post_new salad in
  let p2 := Post_request_review p1 in
  let p3 := Post_approve p2 in
  Post_content p1 = salad /\ Post_content p1 <> "" /\
  Post_content p2 = salad /\ Post_content p3 = salad.
Proof.
  simpl; repeat split; try reflexivity; discriminate.
Qed.

(** C5: for every sequence of calls from [new()], a non-empty final
    [content()] is the concatenation of all [add_text] arguments in call
    order. *)
Theorem C5_content_is_concatenation (cs : list Call) :
  Post_content (run Post_new cs) <> "" ->
  Post_content (run Post_new cs) = texts cs.
Proof.
  intros _; apply content_from_new.
Qed.

Lemma C5_witness :
  Post_content (run Post_new [AddText "ab"; RequestReview; AddText "c"; Approve]) <> "" /\
  Post_content (run Post_new [AddText "ab"; RequestReview; AddText "c"; Approve]) = "abc".
Proof.
  split; [discriminate |].
  exact (C5_content_is_concatenation [AddText "ab"; RequestReview; AddText "c"; Approve]
           ltac:(discriminate)).
Defined.

(** C6: [approve()] on a fresh post is a no-op: the state is [Draft] and
    [content()] is empty before and after the call. *)
Theorem C6_approve_fresh_noop :
  state Post_new = Some Draft /\ Post_content Post_new = "" /\
  state (Post_approve Post_new) = Some Draft /\
  Post_content (Post_approve Post_new) = "".
Proof. repeat split. Qed.

(** C7: once the state is [Published], [approve()] and [request_review()]
    leave the whole post, hence the state and [content()], unchanged. *)
Theorem C7_published_terminal (p : Post) :
  state p = Some Published ->
  Post_approve p = p /\ Post_request_review p = p /\
  state (Post_approve p) = state p /\ state (Post_request_review p) = state p /\
  Post_content (Post_approve p) = Post_content p /\
  Post_content (Post_request_review p) = Post_content p.
Proof.
  intro H; destruct p as [st c]; simpl in H; subst st.
  unfold Post_approve, Post_approve_trace, Post_request_review,
    Post_request_review_trace; simpl.
  repeat split.
Qed.

Lemma C7_witness :
  state {| state := Some Published; content := "hi" |} = Some Published /\
  Post_approve {| state := Some Published; content := "hi" |} =
    {| state := Some Published; content := "hi" |}.
Proof.
  split; [reflexivity |].
  exact (proj1 (C7_published_terminal {| state := Some Published; content := "hi" |}
                  eq_refl)).
Defined.

(** C8: every public call is a total function of the post; from a post
    holding a state, [add_text], [request_review] and [approve] all return
    a post holding one of the three variants, and [content()] returns a
    string. *)
Theorem C8_calls_total (p : Post) (s : State) :
  state p = Some s ->
  (forall c : Call, exists s',
      state (step p c) = Some s' /\ In s' [Draft; PendingReview; Published]) /\
  (exists r : string, Post_content p = r).
Proof.
  intro Hp; split; [| eauto].
  intro c; destruct (step_state_some p c s Hp) as [s' Hs'].
  exists s'; split; [exact Hs' |].
  destruct s'; simpl; tauto.
Qed.

Lemma C8_witness :
  state Post_new = Some Draft /\
  exists s', state (step Post_new Approve) = Some s' /\
             In s' [Draft; PendingReview; Published].
Proof.
  split; [reflexivity |].
  exact (proj1 (C8_calls_total Post_new Draft eq_refl) Approve).
Defined.

(** C9 (counterexample): during [approve()] on a fresh post, after
    [self.state.take()] and before the reassignment, the state slot is
    [None]. *)
Lemma C9_transient_none :
  In {| state := None; content := "" |} (Post_approve_trace Post_new).
Proof. simpl; left; reflexivity. Qed.

(** C9 (amended): after [new()] and after every sequence of public calls,
    the post holds a state; inside [request_review()] and [approve()] the
    slot is [None] only between [take()] and the reassignment, and the
    value at return holds a state again. *)
Theorem C9_state_present_between_calls (cs : list Call) :
  (exists s, state (run Post_new cs) = Some s) /\
  (forall q, In q (Post_approve_trace (run Post_new cs)) ->
     state q = None \/ q = Post_approve (run Post_new cs)) /\
  (forall q, In q (Post_request_review_trace (run Post_new cs)) ->
     state q = None \/ q = Post_request_review (run Post_new cs)) /\
  (exists s, state (Post_approve (run Post_new cs)) = Some s) /\
  (exists s, state (Post_request_review (run Post_new cs)) = Some s).
Proof.
  pose proof (run_state_draft Post_new cs eq_refl) as Hd.
  split; [eauto |].
  split.
  - intros q Hq; unfold Post_approve, Post_approve_trace in *.
    rewrite Hd in *; simpl in Hq |- *.
    destruct Hq as [<- | [<- | []]]; [left | right]; reflexivity.
  - split.
    + intros q Hq; unfold Post_request_review, Post_request_review_trace in *.
      rewrite Hd in *; simpl in Hq |- *.
      destruct Hq as [<- | [<- | []]]; [left | right]; reflexivity.
    + split.
      * exact (step_state_some (run Post_new cs) Approve Draft Hd).
      * exact (step_state_some (run Post_new cs) RequestReview Draft Hd).
Qed.

(** C10: for posts reachable from [new()], [content()] depends only on
    the [add_text] arguments: two call sequences with the same
    concatenation of texts give the same [content()], whatever transitions
    are interleaved. *)
Theorem C10_content_depends_on_texts_only (cs1 cs2 : list Call) :
  texts cs1 = texts cs2 ->
  Post_content (run Post_new cs1) = Post_content (run Post_new cs2) /\
  Post_content (run Post_new cs1) = texts cs1.
Proof.
  intro H; rewrite !content_from_new; split; [exact H | reflexivity].
Qed.

Lemma C10_witness :
  texts [AddText "a"; Approve] = texts [RequestReview; AddText "a"] /\
  Post_content (run Post_new [AddText "a"; Approve]) =
    Post_content (run Post_new [RequestReview; AddText "a"]).
Proof.
  split; [reflexivity |].
  exact (proj1 (C10_content_depends_on_texts_only [AddText "a"; Approve]
                  [RequestReview; AddText "a"] eq_refl)).
Defined.

(** ** Further properties of [impl Post] *)


(** From a post in [Published] every call sequence stays in [Published]. *)
Lemma run_state_published (p : Post) (cs : list Call) :
  state p = Some Published -> state (run p cs) = Some Published.
Proof.
  revert p; induction cs as [| c cs IH]; intros p Hp; simpl; [exact Hp |].
  apply IH; destruct c; simpl.
  - exact Hp.
  - unfold Post_request_review, Post_request_review_trace; simpl.
    now rewrite Hp.
  - unfold Post_approve, Post_approve_trace; simpl.
    now rewrite Hp.
Qed.

(** [add_text("")] leaves the post unchanged. *)
Theorem add_text_empty (p : Post) : Post_add_text p "" = p.
Proof.
  destruct p as [st c]; unfold Post_add_text; simpl.
  now rewrite append_empty_r.
Qed.

(** Two [add_text] calls equal one call with the concatenated text. *)
Theorem add_text_add_text (p : Post) (a b : string) :
  Post_add_text (Post_add_text p a) b = Post_add_text p (a ++ b).
Proof.
  destruct p as [st c]; unfold Post_add_text; simpl.
  now rewrite append_assoc.
Qed.

(** [request_review()] never changes a post: every impl returns [self],
    and with an empty slot the [if let] does nothing. *)
Theorem request_review_identity (p : Post) : Post_request_review p = p.
Proof.
  destruct p as [[[| |] |] c]; reflexivity.
Qed.

(** [approve()] changes a post only from [PendingReview], which it turns
    into [Published] with the same text; elsewhere it is the identity. *)
Theorem approve_cases (p : Post) :
  (state p = Some PendingReview /\
   Post_approve p = {| state := Some Published; content := content p |}) \/
  (state p <> Some PendingReview /\ Post_approve p = p).
Proof.
  destruct p as [[[| |] |] c]; simpl.
  - right; split; [discriminate | reflexivity].
  - left; split; reflexivity.
  - right; split; [discriminate | reflexivity].
  - right; split; [discriminate | reflexivity].
Qed.

(** [approve()] is idempotent on every post. *)
Theorem approve_idempotent (p : Post) :
  Post_approve (Post_approve p) = Post_approve p.
Proof.
  destruct p as [[[| |] |] c]; reflexivity.
Qed.

(** The transitions commute with [add_text]: state and text are
    independent fields. *)
Theorem transitions_commute_add_text (p : Post) (t : string) :
  Post_approve (Post_add_text p t) = Post_add_text (Post_approve p) t /\
  Post_request_review (Post_add_text p t) = Post_add_text (Post_request_review p) t.
Proof.
  destruct p as [[[| |] |] c]; split; reflexivity.
Qed.

(** The buffer is append-only: after any call sequence, the old text is a
    prefix of the new one, and the rest is the concatenated [add_text]
    arguments. *)
Theorem content_append_only (p : Post) (cs : list Call) :
  Post_content (run p cs) = Post_content p ++ texts cs.
Proof.
  unfold Post_content; apply run_content.
Qed.

(** Every post reachable from [new()] is in [Draft]: no call sequence
    changes the state of a fresh post. *)
Theorem reachable_always_draft (cs : list Call) :
  run Post_new cs = {| state := Some Draft; content := texts cs |}.
Proof.
  pose proof (run_state_draft Post_new cs eq_refl) as Hs.
  pose proof (content_from_new cs) as Hc; unfold Post_content in Hc.
  destruct (run Post_new cs) as [st c]; simpl in *; subst; reflexivity.
Qed.

(** A post whose slot is empty stays empty under every call sequence: the
    [if let Some(s)] in [approve] and [request_review] does nothing. *)
Theorem empty_slot_absorbing (p : Post) (cs : list Call) :
  state p = None -> state (run p cs) = None.
Proof.
  revert p; induction cs as [| c cs IH]; intros p Hp; simpl; [exact Hp |].
  apply IH; destruct c; simpl.
  - exact Hp.
  - unfold Post_request_review, Post_request_review_trace; simpl.
    now rewrite Hp.
  - unfold Post_approve, Post_approve_trace; simpl.
    now rewrite Hp.
Qed.

Lemma empty_slot_absorbing_witness :
  state {| state := None; content := "x" |} = None /\
  state (run {| state := None; content := "x" |} [RequestReview; Approve]) = None.
Proof.
  split; [reflexivity |].
  exact (empty_slot_absorbing {| state := None; content := "x" |}
           [RequestReview; Approve] eq_refl).
Defined.

(** From [PendingReview], a call sequence ends in [Published] exactly when
    it contains an [approve()]; otherwise the state stays [PendingReview]. *)
Theorem pending_reaches_published (p : Post) (cs : list Call) :
  state p = Some PendingReview ->
  (In Approve cs -> state (run p cs) = Some Published) /\
  (~ In Approve cs -> state (run p cs) = Some PendingReview).
Proof.
  revert p; induction cs as [| c cs IH]; intros p Hp; cbn [run In].
  - split; [intros [] | intros _; exact Hp].
  - destruct c as [t | |]; cbn [step].
    + assert (H' : state (Post_add_text p t) = Some PendingReview) by exact Hp.
      destruct (IH _ H') as [IH1 IH2]; split.
      * intros [H | H]; [discriminate | exact (IH1 H)].
      * intro H; apply IH2; intro H2; apply H; right; exact H2.
    + rewrite request_review_identity.
      destruct (IH _ Hp) as [IH1 IH2]; split.
      * intros [H | H]; [discriminate | exact (IH1 H)].
      * intro H; apply IH2; intro H2; apply H; right; exact H2.
    + assert (H' : state (Post_approve p) = Some Published).
      { unfold Post_approve, Post_approve_trace; simpl; now rewrite Hp. }
      split.
      * intros _; exact (run_state_published _ cs H').
      * intro H; exfalso; apply H; left; reflexivity.
Qed.

Lemma pending_reaches_published_witness :
  state {| state := Some PendingReview; content := "" |} = Some PendingReview /\
  state (run {| state := Some PendingReview; content := "" |}
           [AddText "a"; RequestReview; Approve]) = Some Published.
Proof.
  split; [reflexivity |].
  apply (proj1 (pending_reaches_published {| state := Some PendingReview; content := "" |}
                  [AddText "a"; RequestReview; Approve] eq_refl)).
  simpl; right; right; left; reflexivity.
Defined.
